(** * PyXA.apps.Preview: the Preview.app scripting facade

    A shallow embedding of [PyXA/apps/Preview.py].  Every method of the
    module forwards to the operating system's scripting bridge, so a method
    is embedded as a program over the bridge's primitives: a tree whose
    nodes are the requests sent to the bridge and whose leaves are the value
    returned to the Python caller, or the exception raised.  Running such a
    program against a bridge gives the requests that were issued, in order,
    the state the remote application is left in, and the result. *)

From Stdlib Require Import String List Lia.
From stdpp Require Import base option list strings gmap.

Local Open Scope string_scope.

(** ** Python values *)

(** A remote object is known to this module only through an opaque
    reference into the target application's process. *)
Definition objref := nat.

(** [AppKit.NSURL], as far as the module uses it: the file URL built by
    [NSURL.alloc().initFileURLWithPath_(path)], and its textual description
    (what [str(url)] gives). *)
Inductive NSURL : Type :=
| fileURL (path : string).

Definition initFileURLWithPath_ (path : string) : NSURL := fileURL path.

Definition NSURL_description (u : NSURL) : string :=
  match u with fileURL p => "file://" ++ p end.

(** The classes that occur as values ([str] in [by_path], the window class
    stored by the application's constructor). *)
Inductive pyclass : Type :=
| class_str
| class_XAPreviewWindow
| class_XAPreviewDocument
| class_XAPreviewDocumentList.

Module XAPath.
(** Modelled from the spec: [XABase.XAPath], the FilePath value type; the
    class is declared in [PyXA/XABase.py].  It wraps a filesystem location,
    and its [xa_elem] is the platform file reference of that location. *)
Record t : Type := wrap { xa_elem : NSURL }.
End XAPath.

#[warnings="-register-all"] Inductive pyval : Type :=
| PyNone
| PyBool (b : bool)
| PyStr (s : string)
| PyList (items : list pyval)
| PyDict (entries : list (string * pyval))
| PyURL (u : NSURL)
| PyRef (o : objref)
| PyType (c : pyclass)
| PyPath (p : XAPath.t).

(** [isinstance(v, str)] *)
Definition isinstance_str (v : pyval) : bool :=
  match v with PyStr _ => true | _ => false end.

(** [v is None] *)
Definition is_None (v : pyval) : bool :=
  match v with PyNone => true | _ => false end.

Definition NSURL_eqb (u1 u2 : NSURL) : bool :=
  match u1, u2 with fileURL p1, fileURL p2 => String.eqb p1 p2 end.

Definition pyclass_eqb (c1 c2 : pyclass) : bool :=
  match c1, c2 with
  | class_str, class_str
  | class_XAPreviewWindow, class_XAPreviewWindow
  | class_XAPreviewDocument, class_XAPreviewDocument
  | class_XAPreviewDocumentList, class_XAPreviewDocumentList => true
  | _, _ => false
  end.

(** Python's [==].  Lists compare element by element; mappings compare as
    sets of entries, whatever the insertion order. *)
Fixpoint py_eq (a b : pyval) : bool :=
  match a, b with
  | PyNone, PyNone => true
  | PyBool x, PyBool y => Bool.eqb x y
  | PyStr x, PyStr y => String.eqb x y
  | PyList xs, PyList ys =>
      (fix all2 (xs ys : list pyval) {struct xs} : bool :=
         match xs, ys with
         | [], [] => true
         | x :: xs', y :: ys' => py_eq x y && all2 xs' ys'
         | _, _ => false
         end) xs ys
  | PyDict d1, PyDict d2 =>
      Nat.eqb (length d1) (length d2) &&
      (fix incl (d : list (string * pyval)) {struct d} : bool :=
         match d with
         | [] => true
         | (k, v) :: d' =>
             match List.find (fun e => String.eqb k (fst e)) d2 with
             | Some e => py_eq v (snd e)
             | None => false
             end && incl d'
         end) d1
  | PyURL x, PyURL y => NSURL_eqb x y
  | PyRef x, PyRef y => Nat.eqb x y
  | PyType x, PyType y => pyclass_eqb x y
  | PyPath x, PyPath y => NSURL_eqb (XAPath.xa_elem x) (XAPath.xa_elem y)
  | _, _ => false
  end.

(** The exceptions a call can end in: the two Python raises on a value of
    the wrong shape, and a failure reported by the bridge, which the module
    never catches. *)
Inductive exn : Type :=
| AttributeError
| TypeError
| BridgeFailure (code : nat).

(** ** The scripting bridge *)

(** The requests the module sends: the four primitives of the bridge, and
    the enumeration of a remote collection that the list base class uses. *)
Inductive bridge_call : Type :=
| GetAttribute (target : objref) (selector : string)
| SetAttribute (target : objref) (key : string) (value : pyval)
| InvokeAction (target : objref) (selector : string) (args : list pyval)
| GetAttributeForEach (collection : objref) (selector : string)
| Elements (collection : objref).

Definition is_get_attribute (c : bridge_call) : bool :=
  match c with GetAttribute _ _ => true | _ => false end.

(** Programs over the bridge. *)
Inductive prog (A : Type) : Type :=
| Ret (a : A)
| Raise (e : exn)
| Call (c : bridge_call) (k : pyval -> prog A).
Arguments Ret {A} a.
Arguments Raise {A} e.
Arguments Call {A} c k.

Fixpoint prog_bind {A B} (f : A -> prog B) (p : prog A) : prog B :=
  match p with
  | Ret a => f a
  | Raise e => Raise e
  | Call c k => Call c (fun v => prog_bind f (k v))
  end.

#[export] Instance prog_ret : MRet prog := @Ret.
#[export] Instance prog_mbind : MBind prog := @prog_bind.

(** A method body: a program that also threads the fields of [self]. *)
Definition meth (S A : Type) : Type := S -> prog (A * S).

#[export] Instance meth_ret {S} : MRet (meth S) :=
  fun A a self => Ret (a, self).
#[export] Instance meth_mbind {S} : MBind (meth S) :=
  fun A B f m self => prog_bind (fun '(a, self') => f a self') (m self).

(** [self] *)
Definition this {S} : meth S S := fun self => Ret (self, self).
(** a request to the bridge, answered with a value *)
Definition bridge {S} (c : bridge_call) : meth S pyval :=
  fun self => Call c (fun v => Ret (v, self)).
(** [raise e] *)
Definition raise {S A} (e : exn) : meth S A := fun _ => Raise e.
(** a computation that does not touch [self] *)
Definition lift {S A} (p : prog A) : meth S A :=
  fun self => prog_bind (fun a => Ret (a, self)) p.

(** ** Running a program against a bridge *)

(** A bridge answers a request, in a state of the remote application, with
    the next state and either a value or a failure. *)
Definition Bridge (R : Type) : Type := R -> bridge_call -> R * (exn + pyval).

Record outcome (R A : Type) : Type := Outcome {
  remote : R;
  calls : list bridge_call;
  result : exn + A
}.
Arguments Outcome {R A} _ _ _.
Arguments remote {R A} _.
Arguments calls {R A} _.
Arguments result {R A} _.

Fixpoint run {R A} (b : Bridge R) (p : prog A) (w : R) : outcome R A :=
  match p with
  | Ret a => Outcome w [] (inr a)
  | Raise e => Outcome w [] (inl e)
  | Call c k =>
      match b w c with
      | (w', inl e) => Outcome w' [c] (inl e)
      | (w', inr v) =>
          let o := run b (k v) w' in
          Outcome (remote o) (c :: calls o) (result o)
      end
  end.

(** Calling the method [m] on the handle [self]. *)
Definition invoke {R S A} (b : Bridge R) (m : meth S A) (self : S) (w : R)
  : outcome R (A * S) :=
  run b (m self) w.

(** ** Python built-ins used by the module *)

(** The values produced by iterating over [v] (a [for] clause, [list(v)]). *)
Definition py_iter (v : pyval) : exn + list pyval :=
  match v with
  | PyList l => inr l
  | PyStr s => inr (map (fun c => PyStr (String c EmptyString)) (list_ascii_of_string s))
  | PyDict d => inr (map (fun e => PyStr (fst e)) d)
  | _ => inl TypeError
  end.

(** [list(v)] *)
Definition py_list (v : pyval) : exn + pyval :=
  match py_iter v with
  | inr l => inr (PyList l)
  | inl e => inl e
  end.

(** [v.xa_elem], for the values that have the attribute. *)
Definition getattr_xa_elem (v : pyval) : exn + NSURL :=
  match v with
  | PyPath p => inr (XAPath.xa_elem p)
  | _ => inl AttributeError
  end.

(** A local computation that returns or raises. *)
Definition try {S A} (r : exn + A) : meth S A :=
  fun self => match r with inr a => Ret (a, self) | inl e => Raise e end.

(** ** What the module takes from [PyXA.XABase] *)

Module XABase.

(** Modelled from the spec: the constructor of [XABase.XAPath], declared in
    [PyXA/XABase.py].  A raw path string is wrapped as the file reference of
    that path, a file reference is wrapped as it is; the spec describes no
    FilePath of any other value, and the construction fails on one. *)
Definition XAPath (path : pyval) : exn + XAPath.t :=
  match path with
  | PyStr s => inr (XAPath.wrap (initFileURLWithPath_ s))
  | PyURL u => inr (XAPath.wrap u)
  | _ => inl TypeError
  end.

Section XAList.
(** The list base class, over a handle type [S] holding the remote
    collection in [xa_elem], with elements wrapped by [xa_ocls]. *)
Context {S E : Type} (xa_elem : S -> objref) (xa_ocls : objref -> E).

(** Modelled from the spec: [XAObject._new_element], declared in
    [PyXA/XABase.py]: wrap a raw handle into a typed object. *)
Definition _new_element (obj : objref) : E := xa_ocls obj.

(** Modelled from the spec: the scan of [XAList.by_property] over the
    elements that the remote collection enumerates. *)
Fixpoint scan (property : string) (value : pyval) (elems : list pyval)
  : meth S (option E) :=
  match elems with
  | [] => mret None
  | PyRef obj :: rest =>
      v ← bridge (GetAttribute obj property);
      if py_eq v value then mret (Some (_new_element obj))
      else scan property value rest
  | _ :: _ => raise TypeError
  end.

(** Modelled from the spec: [XAList.by_property], declared in
    [PyXA/XABase.py]: scan the collection for the first element whose
    named attribute equals the given value, and return that element or
    the absent value. *)
Definition by_property (property : string) (value : pyval)
  : meth S (option E) :=
  self ← this;
  elems ← bridge (Elements (xa_elem self));
  elems ← try (py_iter elems);
  scan property value elems.
End XAList.

End XABase.

(** ** class XAPreviewApplication *)

Module XAPreviewApplication.

Record t : Type := { xa_scel : objref; xa_wcls : pyclass }.

Definition frontmost : meth t pyval :=
  self ← this; bridge (GetAttribute (xa_scel self) "frontmost").

Definition name : meth t pyval :=
  self ← this; bridge (GetAttribute (xa_scel self) "name").

Definition version : meth t pyval :=
  self ← this; bridge (GetAttribute (xa_scel self) "version").

(** [def print(self, path, show_prompt = True)] *)
Definition print (path : pyval) (show_prompt : option bool) : meth t pyval :=
  let show_prompt := default true show_prompt in
  self ← this;
  let path :=
    match path with
    | PyStr s => PyURL (initFileURLWithPath_ s)
    | _ => path
    end in
  _ ← bridge (InvokeAction (xa_scel self) "print:printDialog:withProperties:"
                [path; PyBool show_prompt; PyNone]);
  mret PyNone.

End XAPreviewApplication.

(** ** class XAPreviewWindow *)

Module XAPreviewWindow.

Record t : Type := { xa_elem : objref }.

Definition properties : meth t pyval :=
  self ← this; bridge (GetAttribute (xa_elem self) "properties").

Definition floating : meth t pyval :=
  self ← this; bridge (GetAttribute (xa_elem self) "floating").

Definition modal : meth t pyval :=
  self ← this; bridge (GetAttribute (xa_elem self) "modal").

Definition titled : meth t pyval :=
  self ← this; bridge (GetAttribute (xa_elem self) "titled").

End XAPreviewWindow.

(** ** class XAPreviewDocument *)

Module XAPreviewDocument.

Record t : Type := { xa_elem : objref }.

Definition properties : meth t pyval :=
  self ← this; bridge (GetAttribute (xa_elem self) "properties").

Definition name : meth t pyval :=
  self ← this; bridge (GetAttribute (xa_elem self) "name").

Definition path : meth t XAPath.t :=
  self ← this;
  p ← bridge (GetAttribute (xa_elem self) "path");
  try (XABase.XAPath p).

Definition modified : meth t pyval :=
  self ← this; bridge (GetAttribute (xa_elem self) "modified").

(** [def print(self, print_properties = None, show_dialog = True) -> Self] *)
Definition print (print_properties : option pyval) (show_dialog : option bool)
  : meth t t :=
  let print_properties := default PyNone print_properties in
  let show_dialog := default true show_dialog in
  self ← this;
  let print_properties :=
    if is_None print_properties then PyDict [] else print_properties in
  _ ← bridge (InvokeAction (xa_elem self) "print:printDialog:withProperties:"
                [PyRef (xa_elem self); PyBool show_dialog; print_properties]);
  mret self.

(** [def save(self, file_path = None)] *)
Definition save (file_path : option pyval) : meth t pyval :=
  let file_path := default PyNone file_path in
  self ← this;
  _ ← bridge (InvokeAction (xa_elem self) "saveAs:in:" [PyNone; file_path]);
  mret PyNone.

Definition get_clipboard_representation : meth t NSURL :=
  p ← path; mret (XAPath.xa_elem p).

End XAPreviewDocument.

(** ** class XAPreviewDocumentList *)

Module XAPreviewDocumentList.

Record t : Type := { xa_elem : objref }.

(** [self.by_property], inherited from [XABase.XAList] with
    [XAPreviewDocument] as the element class. *)
Definition by_property : string -> pyval -> meth t (option XAPreviewDocument.t) :=
  XABase.by_property xa_elem XAPreviewDocument.Build_t.

Definition properties : meth t pyval :=
  self ← this;
  ls ← bridge (GetAttributeForEach (xa_elem self) "properties");
  try (py_list ls).

Definition name : meth t pyval :=
  self ← this;
  ls ← bridge (GetAttributeForEach (xa_elem self) "name");
  try (py_list ls).

Definition path : meth t (list XAPath.t) :=
  self ← this;
  ls ← bridge (GetAttributeForEach (xa_elem self) "path");
  ls ← try (py_iter ls);
  mapM (fun x => try (XABase.XAPath x)) ls.

Definition modified : meth t pyval :=
  self ← this;
  ls ← bridge (GetAttributeForEach (xa_elem self) "modified");
  try (py_list ls).

Definition by_properties (properties : pyval) : meth t (option XAPreviewDocument.t) :=
  by_property "properties" properties.

Definition by_name (name : pyval) : meth t (option XAPreviewDocument.t) :=
  by_property "name" name.

Definition by_path (path : pyval) : meth t (option XAPreviewDocument.t) :=
  path ← (if isinstance_str path
          then p ← try (XABase.XAPath (PyType class_str)); mret (PyPath p)
          else mret path);
  elem ← try (getattr_xa_elem path);
  by_property "path" (PyStr (NSURL_description elem)).

Definition by_modified (modified : pyval) : meth t (option XAPreviewDocument.t) :=
  by_property "modified" modified.

Definition get_clipboard_representation : meth t (list NSURL) :=
  paths ← path; mret (map XAPath.xa_elem paths).

End XAPreviewDocumentList.

(** ** A fake bridge *)

(** The test double: a remote application is a table of objects, each a
    table of attribute values, and a table of collections, each the ordered
    references of its elements. *)
Record FakeApp : Type := {
  objects : gmap objref (gmap string pyval);
  arrays : gmap objref (list objref)
}.

(** An attribute that the object does not have reads as nil. *)
Definition attribute (w : FakeApp) (o : objref) (selector : string) : pyval :=
  default PyNone (objects w !! o ≫= fun attrs => attrs !! selector).

Definition members (w : FakeApp) (collection : objref) : list objref :=
  default [] (arrays w !! collection).

Definition set_attribute (w : FakeApp) (o : objref) (key : string) (v : pyval)
  : FakeApp :=
  {| objects := <[o := <[key := v]> (default ∅ (objects w !! o))]> (objects w);
     arrays := arrays w |}.

Definition fake_bridge : Bridge FakeApp :=
  fun w c =>
    match c with
    | GetAttribute o sel => (w, inr (attribute w o sel))
    | SetAttribute o key v => (set_attribute w o key v, inr PyNone)
    | InvokeAction _ _ _ => (w, inr PyNone)
    | GetAttributeForEach coll sel =>
        (w, inr (PyList (map (fun o => attribute w o sel) (members w coll))))
    | Elements coll => (w, inr (PyList (map PyRef (members w coll))))
    end.

(** [isinstance(v, AppKit.NSURL)] *)
Definition isinstance_NSURL (v : pyval) : bool :=
  match v with PyURL _ => true | _ => false end.

(** What a method hands back when its one request [c] is answered: the
    bridge's failure as it is, or [ret] of the answer. *)
Definition answer_of {R A} (b : Bridge R) (w : R) (c : bridge_call)
    (ret : pyval -> A) : exn + A :=
  match snd (b w c) with
  | inl e => inl e
  | inr v => inr (ret v)
  end.

(** A method that is one get-attribute query: it sends that query and
    nothing else, leaves the remote application as it was, and returns the
    answer with the fields of [self] as they were. *)
Definition reads_attribute {R S} (b : Bridge R) (m : meth S pyval)
    (target : S -> objref) (selector : string) : Prop :=
  forall (w : R) (self : S),
    let q := GetAttribute (target self) selector in
    let o := invoke b m self w in
    calls o = [q] /\
    forallb is_get_attribute (calls o) = true /\
    remote o = w /\
    result o = answer_of b w q (fun v => (v, self)).

(** A bridge whose get-attribute is a query: answering it changes nothing
    in the remote application. *)
Definition get_attribute_is_query {R} (b : Bridge R) : Prop :=
  forall w o selector, fst (b w (GetAttribute o selector)) = w.

(** ** Concrete remote applications *)

(** Preview with the two documents of the module's docstrings open. *)
Definition example_app : FakeApp := {|
  objects :=
    {[ 11 := ({[ "name" := PyStr "Example1.pdf";
                 "path" := PyStr "/Users/steven/Example1.pdf" ]} : gmap string pyval);
       12 := ({[ "name" := PyStr "Example2.pdf";
                 "path" := PyStr "/Users/steven/Example2.pdf" ]} : gmap string pyval) ]};
  arrays := {[ 10 := [11; 12] ]}
|}.

Definition example_docs : XAPreviewDocumentList.t :=
  {| XAPreviewDocumentList.xa_elem := 10 |}.

Definition example_application : XAPreviewApplication.t :=
  {| XAPreviewApplication.xa_scel := 1;
     XAPreviewApplication.xa_wcls := class_XAPreviewWindow |}.

(** The same two documents behind a bridge that reports a document's path
    as the text of its file URL. *)
Definition url_app : FakeApp := {|
  objects :=
    {[ 11 := ({[ "name" := PyStr "Example1.pdf";
                 "path" := PyStr "file:///Users/steven/Example1.pdf" ]} : gmap string pyval);
       12 := ({[ "name" := PyStr "Example2.pdf";
                 "path" := PyStr "file:///Users/steven/Example2.pdf" ]} : gmap string pyval) ]};
  arrays := {[ 10 := [11; 12] ]}
|}.

(** ** The property setters of the document handle *)

(** The values of Python's built-in types [NoneType], [bool], [list] and
    [dict], and the [NSURL] objects: none of them has an attribute named
    [xa_elem].  The handles of this module do have one, and are not among
    these values. *)
Definition lacks_xa_elem (v : pyval) : bool :=
  match v with
  | PyNone | PyBool _ | PyList _ | PyDict _ | PyURL _ => true
  | _ => false
  end.

Module XAPreviewDocumentSetters.
Section WithSetProperty.
(** [XAObject.set_property] is declared in [PyXA/XABase.py]; the setters are
    embedded over whatever it does with the key and the value it is given. *)
Context (set_property : string -> pyval -> meth XAPreviewDocument.t pyval).

(** [@name.setter] *)
Definition name (name : pyval) : meth XAPreviewDocument.t pyval :=
  _ ← set_property "name" name; mret PyNone.

(** [@path.setter]: the argument [path.xa_elem] is evaluated before
    [set_property] is called. *)
Definition path (path : pyval) : meth XAPreviewDocument.t pyval :=
  elem ← try (getattr_xa_elem path);
  _ ← set_property "path" (PyURL elem);
  mret PyNone.
End WithSetProperty.
End XAPreviewDocumentSetters.

(** ** More remote applications *)

(** An application that answers every request with nil. *)
Definition nil_bridge : Bridge unit := fun w _ => (w, inr PyNone).

(** Preview with no document open. *)
Definition no_documents_app : FakeApp := {| objects := ∅; arrays := ∅ |}.

(** Preview with an edited and an untouched document. *)
Definition edited_app : FakeApp := {|
  objects :=
    {[ 11 := ({[ "name" := PyStr "Example1.pdf";
                 "modified" := PyBool true;
                 "properties" := PyDict [("name", PyStr "Example1.pdf");
                                         ("modified", PyBool true)] ]}
              : gmap string pyval);
       12 := ({[ "name" := PyStr "Example2.pdf";
                 "modified" := PyBool false;
                 "properties" := PyDict [("name", PyStr "Example2.pdf");
                                         ("modified", PyBool false)] ]}
              : gmap string pyval) ]};
  arrays := {[ 10 := [11; 12] ]}
|}.

(** A [set_property] that sends one set-attribute request for the document. *)
Definition set_attribute_of_document (key : string) (value : pyval)
  : meth XAPreviewDocument.t pyval :=
  self ← this; bridge (SetAttribute (XAPreviewDocument.xa_elem self) key value).

(** ** Running programs: general facts *)

(** Case analysis on the bridge's answer to the request being run. *)
Ltac bridge_answers :=
  match goal with
  | |- context [?b ?w (InvokeAction ?o ?sel ?args)] =>
      destruct (b w (InvokeAction o sel args)) as [? [?|?]]
  | |- context [?b ?w (GetAttributeForEach ?o ?sel)] =>
      destruct (b w (GetAttributeForEach o sel)) as [? [?|?]]
  end.

Lemma run_bind {R A B} (b : Bridge R) (f : A -> prog B) (p : prog A) (w : R) :
  run b (prog_bind f p) w =
  let o1 := run b p w in
  match result o1 with
  | inl e => Outcome (remote o1) (calls o1) (inl e)
  | inr a =>
      let o2 := run b (f a) (remote o1) in
      Outcome (remote o2) (calls o1 ++ calls o2) (result o2)
  end.
Proof.
  revert w. induction p as [a|e|c k IH]; intros w; simpl.
  - by destruct (run b (f a) w).
  - done.
  - destruct (b w c) as [w' [e|v]]; simpl; [done|].
    rewrite IH. simpl. by destruct (result (run b (k v) w')).
Qed.

Lemma meth_bind_unfold {S A B} (m : meth S A) (f : A -> meth S B) (self : S) :
  (m ≫= f) self = prog_bind (fun '(a, self') => f a self') (m self).
Proof. reflexivity. Qed.

Lemma invoke_bind {R S A B} (b : Bridge R) (m : meth S A) (f : A -> meth S B)
    (self : S) (w : R) :
  invoke b (m ≫= f) self w =
  let o1 := invoke b m self w in
  match result o1 with
  | inl e => Outcome (remote o1) (calls o1) (inl e)
  | inr (a, self') =>
      let o2 := invoke b (f a) self' (remote o1) in
      Outcome (remote o2) (calls o1 ++ calls o2) (result o2)
  end.
Proof.
  unfold invoke. rewrite meth_bind_unfold, run_bind. cbv zeta.
  by destruct (result (run b (m self) w)) as [e|[a self']].
Qed.

Lemma this_bind {S B} (f : S -> meth S B) (self : S) :
  (this ≫= f) self = f self self.
Proof. reflexivity. Qed.

Lemma bridge_bind {S B} (c : bridge_call) (f : pyval -> meth S B) (self : S) :
  (bridge c ≫= f) self = Call c (fun v => f v self).
Proof. reflexivity. Qed.

Lemma try_bind {S A B} (r : exn + A) (f : A -> meth S B) (self : S) :
  (try r ≫= f) self = match r with inr a => f a self | inl e => Raise e end.
Proof. by destruct r. Qed.

Lemma fake_bridge_query : get_attribute_is_query fake_bridge.
Proof. by intros w o selector. Qed.

(** One request, then a return that does not depend on the request's
    state: the shape of every pass-through method. *)
Lemma run_single {R A} (b : Bridge R) (c : bridge_call) (ret : pyval -> A) (w : R) :
  calls (run b (Call c (fun v => Ret (ret v))) w) = [c] /\
  remote (run b (Call c (fun v => Ret (ret v))) w) = fst (b w c) /\
  result (run b (Call c (fun v => Ret (ret v))) w) = answer_of b w c ret.
Proof.
  unfold answer_of. simpl. by destruct (b w c) as [w' [e|v]].
Qed.

Lemma single_query_reads {R S} (b : Bridge R) (target : S -> objref) (selector : string) :
  get_attribute_is_query b ->
  reads_attribute b (self ← this; bridge (GetAttribute (target self) selector))
    target selector.
Proof.
  intros Hq w self. unfold invoke.
  change ((self ← this; bridge (GetAttribute (target self) selector)) self)
    with (Call (GetAttribute (target self) selector) (fun v => Ret (v, self))).
  destruct (run_single b (GetAttribute (target self) selector) (fun v => (v, self)) w)
    as (Hc & Hr & Hres).
  cbv zeta. rewrite Hc, Hr, Hres, Hq. done.
Qed.

(** ** The application handle *)

(** C4: given a string path, the application's [print] sends the bridge one
    print action whose path argument is the file URL built from the string:
    a URL-typed value, and not the raw string. *)
Theorem application_print_str_sends_file_url :
  forall {R} (b : Bridge R) (w : R) (self : XAPreviewApplication.t)
         (s : string) (show_prompt : option bool),
    let url := PyURL (initFileURLWithPath_ s) in
    calls (invoke b (XAPreviewApplication.print (PyStr s) show_prompt) self w)
    = [InvokeAction (XAPreviewApplication.xa_scel self)
         "print:printDialog:withProperties:"
         [url; PyBool (default true show_prompt); PyNone]]
    /\ isinstance_NSURL url = true
    /\ isinstance_str url = false
    /\ url <> PyStr s.
Proof.
  intros R b w self s show_prompt url. repeat split; try done.
  unfold invoke. simpl. by bridge_answers.
Qed.

(** C8: a path that is not a string, a file URL in particular, reaches the
    bridge's print action as it was given. *)
Theorem application_print_non_str_unchanged :
  forall {R} (b : Bridge R) (w : R) (self : XAPreviewApplication.t)
         (path : pyval) (show_prompt : option bool),
    isinstance_str path = false ->
    calls (invoke b (XAPreviewApplication.print path show_prompt) self w)
    = [InvokeAction (XAPreviewApplication.xa_scel self)
         "print:printDialog:withProperties:"
         [path; PyBool (default true show_prompt); PyNone]].
Proof.
  intros R b w self path show_prompt Hns. unfold invoke.
  destruct path; try discriminate Hns; simpl; by bridge_answers.
Qed.

Lemma application_print_non_str_unchanged_witness :
  isinstance_str (PyURL (fileURL "/tmp/a.pdf")) = false /\
  calls (invoke fake_bridge
           (XAPreviewApplication.print (PyURL (fileURL "/tmp/a.pdf")) (Some false))
           example_application example_app)
  = [InvokeAction (XAPreviewApplication.xa_scel example_application)
       "print:printDialog:withProperties:"
       [PyURL (fileURL "/tmp/a.pdf"); PyBool false; PyNone]].
Proof.
  split; [reflexivity|].
  apply (application_print_non_str_unchanged fake_bridge); reflexivity.
Defined.

(** ** The document handle *)

(** C5: [save()] and [save(None)] send the save action with nil in the
    destination position: no destination is supplied.  [save(p)] sends the
    string [p] itself in that position, not a URL made from it. *)
Theorem document_save_destination :
  forall {R} (b : Bridge R) (w : R) (self : XAPreviewDocument.t),
    let saveAs dest :=
      [InvokeAction (XAPreviewDocument.xa_elem self) "saveAs:in:" [PyNone; dest]] in
    calls (invoke b (XAPreviewDocument.save None) self w) = saveAs PyNone
    /\ calls (invoke b (XAPreviewDocument.save (Some PyNone)) self w) = saveAs PyNone
    /\ forall p : string,
         calls (invoke b (XAPreviewDocument.save (Some (PyStr p))) self w)
         = saveAs (PyStr p).
Proof.
  intros R b w self saveAs. unfold invoke, saveAs.
  repeat split; intros; simpl; by bridge_answers.
Qed.

(** C7: for every handle [d] and every choice of arguments, [d.print] sends
    one print action, addressed to the document of [d] and naming it as the
    thing to print, and then returns [d], whose fields are as before; only a
    failure reported by the bridge for that action takes the place of the
    return value, and the fake bridge reports none. *)
Theorem document_print_returns_self :
  forall {R} (b : Bridge R) (w : R) (d : XAPreviewDocument.t)
         (print_properties : option pyval) (show_dialog : option bool),
    let given := default PyNone print_properties in
    let request :=
      InvokeAction (XAPreviewDocument.xa_elem d)
        "print:printDialog:withProperties:"
        [PyRef (XAPreviewDocument.xa_elem d);
         PyBool (default true show_dialog);
         if is_None given then PyDict [] else given] in
    calls (invoke b (XAPreviewDocument.print print_properties show_dialog) d w)
    = [request]
    /\ result (invoke b (XAPreviewDocument.print print_properties show_dialog) d w)
       = answer_of b w request (fun _ => (d, d))
    /\ forall app : FakeApp,
         result (invoke fake_bridge
                   (XAPreviewDocument.print print_properties show_dialog) d app)
         = inr (d, d).
Proof.
  intros R b w d print_properties show_dialog given request.
  unfold invoke, answer_of, request, given. simpl.
  repeat split; by bridge_answers.
Qed.

(** C9: with [print_properties] left out, or given as [None], the print
    action carries the empty mapping; and whatever the arguments are, its
    properties argument is never nil. *)
Theorem document_print_default_properties :
  forall {R} (b : Bridge R) (w : R) (d : XAPreviewDocument.t)
         (show_dialog : option bool),
    let request properties :=
      InvokeAction (XAPreviewDocument.xa_elem d)
        "print:printDialog:withProperties:"
        [PyRef (XAPreviewDocument.xa_elem d);
         PyBool (default true show_dialog); properties] in
    calls (invoke b (XAPreviewDocument.print None show_dialog) d w)
    = [request (PyDict [])]
    /\ calls (invoke b (XAPreviewDocument.print (Some PyNone) show_dialog) d w)
       = [request (PyDict [])]
    /\ forall print_properties, exists properties,
         calls (invoke b (XAPreviewDocument.print print_properties show_dialog) d w)
         = [request properties]
         /\ is_None properties = false.
Proof.
  intros R b w d show_dialog request. unfold invoke, request.
  split; [|split].
  - simpl. by bridge_answers.
  - simpl. by bridge_answers.
  - intros print_properties.
    exists (if is_None (default PyNone print_properties)
            then PyDict [] else default PyNone print_properties).
    split.
    + simpl. by bridge_answers.
    + by destruct (is_None (default PyNone print_properties)) eqn:E.
Qed.

(** ** Property getters *)

(** C10: on a bridge whose get-attribute is a query, each of the read-only
    getters (application: frontmost, name, version; window: properties,
    floating, modal, titled; document: properties, name, modified) sends one
    get-attribute request and no other, so it sets no attribute and invokes
    no action; the remote application is left as it was, and so are the
    fields of the handle. *)
Theorem getters_only_read :
  forall {R} (b : Bridge R),
    get_attribute_is_query b ->
    reads_attribute b XAPreviewApplication.frontmost
      XAPreviewApplication.xa_scel "frontmost"
    /\ reads_attribute b XAPreviewApplication.name
         XAPreviewApplication.xa_scel "name"
    /\ reads_attribute b XAPreviewApplication.version
         XAPreviewApplication.xa_scel "version"
    /\ reads_attribute b XAPreviewWindow.properties
         XAPreviewWindow.xa_elem "properties"
    /\ reads_attribute b XAPreviewWindow.floating
         XAPreviewWindow.xa_elem "floating"
    /\ reads_attribute b XAPreviewWindow.modal
         XAPreviewWindow.xa_elem "modal"
    /\ reads_attribute b XAPreviewWindow.titled
         XAPreviewWindow.xa_elem "titled"
    /\ reads_attribute b XAPreviewDocument.properties
         XAPreviewDocument.xa_elem "properties"
    /\ reads_attribute b XAPreviewDocument.name
         XAPreviewDocument.xa_elem "name"
    /\ reads_attribute b XAPreviewDocument.modified
         XAPreviewDocument.xa_elem "modified".
Proof.
  intros R b Hq. repeat split; by apply single_query_reads.
Qed.

(** ** The document collection *)

Lemma scan_fake {S E} (xa_ocls : objref -> E) (w : FakeApp) (self : S)
    (property : string) (value : pyval) (elems : list objref) :
  let o := run fake_bridge
             (XABase.scan xa_ocls property value (map PyRef elems) self) w in
  remote o = w /\
  Forall is_get_attribute (calls o) /\
  result o
  = inr (xa_ocls <$> List.find (fun e => py_eq (attribute w e property) value) elems,
         self).
Proof.
  induction elems as [|e elems IH]; [by repeat split|].
  cbn [map XABase.scan List.find].
  unfold mbind, meth_mbind, bridge. cbn [prog_bind run fake_bridge].
  destruct (py_eq (attribute w e property) value) eqn:Heq.
  - cbn. repeat split; auto.
  - cbn [remote calls result]. destruct IH as (IH1 & IH2 & IH3).
    repeat split; auto.
Qed.

Lemma by_property_fake (w : FakeApp) (docs : XAPreviewDocumentList.t)
    (property : string) (value : pyval) :
  let o := invoke fake_bridge
             (XAPreviewDocumentList.by_property property value) docs w in
  remote o = w /\
  result o
  = inr (XAPreviewDocument.Build_t <$>
           List.find (fun e => py_eq (attribute w e property) value)
             (members w (XAPreviewDocumentList.xa_elem docs)),
         docs).
Proof.
  unfold invoke, XAPreviewDocumentList.by_property, XABase.by_property.
  unfold mbind, meth_mbind, this, bridge, try.
  cbn [prog_bind run fake_bridge py_iter remote calls result].
  destruct (scan_fake XAPreviewDocument.Build_t w docs property value
              (members w (XAPreviewDocumentList.xa_elem docs))) as (H1 & _ & H3).
  split; [exact H1 | exact H3].
Qed.

Lemma find_first {A} (f : A -> bool) (l : list A) :
  match List.find f l with
  | Some a =>
      exists before after,
        l = (before ++ a :: after)%list /\ f a = true /\
        forallb (fun a' => negb (f a')) before = true
  | None => forallb (fun a' => negb (f a')) l = true
  end.
Proof.
  induction l as [|a l IH]; [done|]. simpl.
  destruct (f a) eqn:Hfa.
  - by exists [], l.
  - destruct (List.find f l) as [a'|].
    + destruct IH as (before & after & -> & Hfa' & Hbefore).
      exists (a :: before), after. simpl. by rewrite Hfa, Hbefore.
    + done.
Qed.

(** C3: on the fake bridge, [by_name(x)] returns, it does not raise.  When
    some element of the collection has a name equal to [x], what it returns
    is the first such element, wrapped as a document handle: no element
    before it has that name.  When no element has, it returns the absent
    value. *)
Theorem by_name_first_match_or_absent :
  forall (w : FakeApp) (docs : XAPreviewDocumentList.t) (x : string),
    let named e := py_eq (attribute w e "name") (PyStr x) in
    let elems := members w (XAPreviewDocumentList.xa_elem docs) in
    let found :=
      result (invoke fake_bridge (XAPreviewDocumentList.by_name (PyStr x)) docs w) in
    found = inr (XAPreviewDocument.Build_t <$> List.find named elems, docs)
    /\ match List.find named elems with
       | Some e =>
           found = inr (Some (XAPreviewDocument.Build_t e), docs) /\
           exists before after,
             elems = (before ++ e :: after)%list /\ named e = true /\
             forallb (fun e' => negb (named e')) before = true
       | None =>
           found = inr (None, docs) /\
           forallb (fun e' => negb (named e')) elems = true
       end.
Proof.
  intros w docs x named elems found.
  assert (Hfound : found
            = inr (XAPreviewDocument.Build_t <$> List.find named elems, docs))
    by apply (by_property_fake w docs "name" (PyStr x)).
  split; [exact Hfound|].
  pose proof (find_first named elems) as Hfirst.
  destruct (List.find named elems) as [e|]; by split.
Qed.

(** Running the list comprehension [[XABase.XAPath(x) for x in ls]] over the
    path values of [elems]. *)
Lemma wrap_paths_fake {S} (w : FakeApp) (self : S) (elems : list objref) :
  forallb (fun e => isinstance_str (attribute w e "path")
                    || isinstance_NSURL (attribute w e "path")) elems = true ->
  exists paths,
    mapM (fun x => try (XABase.XAPath x))
      (map (fun e => attribute w e "path") elems) self
    = Ret (paths, self)
    /\ Forall2 (fun e p => XABase.XAPath (attribute w e "path") = inr p) elems paths.
Proof.
  induction elems as [|e elems IH]; intros Hok.
  - by exists [].
  - simpl in Hok. apply andb_prop in Hok as [He Hrest].
    destruct (IH Hrest) as (paths & Hrun & Hall).
    destruct (attribute w e "path") eqn:Hpath; try discriminate He.
    + exists (XAPath.wrap (initFileURLWithPath_ s) :: paths). split.
      * cbn [map mapM]. rewrite Hpath, !meth_bind_unfold.
        cbn [try XABase.XAPath prog_bind]. rewrite meth_bind_unfold, Hrun. done.
      * constructor; [by rewrite Hpath | exact Hall].
    + exists (XAPath.wrap u :: paths). split.
      * cbn [map mapM]. rewrite Hpath, !meth_bind_unfold.
        cbn [try XABase.XAPath prog_bind]. rewrite meth_bind_unfold, Hrun. done.
      * constructor; [by rewrite Hpath | exact Hall].
Qed.

(** C2: [collection.name()] is one request to the bridge, the batched
    get-attribute-for-each on the collection, whatever the bridge; and on
    the fake bridge the list it returns has one entry per element, whose
    [i]-th entry is what the [name] getter of the [i]-th element returns. *)
Theorem name_projection_pointwise :
  forall (w : FakeApp) (docs : XAPreviewDocumentList.t) (i : nat) (e : objref),
    members w (XAPreviewDocumentList.xa_elem docs) !! i = Some e ->
    (forall {R} (b : Bridge R) (w' : R),
        calls (invoke b XAPreviewDocumentList.name docs w')
        = [GetAttributeForEach (XAPreviewDocumentList.xa_elem docs) "name"])
    /\ exists names v,
         result (invoke fake_bridge XAPreviewDocumentList.name docs w)
         = inr (PyList names, docs)
         /\ length names = length (members w (XAPreviewDocumentList.xa_elem docs))
         /\ names !! i = Some v
         /\ result (invoke fake_bridge XAPreviewDocument.name
                      (XAPreviewDocument.Build_t e) w)
            = inr (v, XAPreviewDocument.Build_t e).
Proof.
  intros w docs i e Hi. split.
  - intros R b w'. unfold invoke. simpl.
    bridge_answers; [done|]. simpl.
    unfold try. by destruct (py_list _).
  - exists (map (fun o => attribute w o "name")
              (members w (XAPreviewDocumentList.xa_elem docs))),
           (attribute w e "name").
    repeat split.
    + by rewrite length_map.
    + by rewrite list_lookup_fmap, Hi.
Qed.

Lemma name_projection_pointwise_witness :
  members example_app (XAPreviewDocumentList.xa_elem example_docs) !! 1 = Some 12
  /\ exists names v,
       result (invoke fake_bridge XAPreviewDocumentList.name example_docs example_app)
       = inr (PyList names, example_docs)
       /\ length names
          = length (members example_app (XAPreviewDocumentList.xa_elem example_docs))
       /\ names !! 1 = Some v
       /\ result (invoke fake_bridge XAPreviewDocument.name
                    (XAPreviewDocument.Build_t 12) example_app)
          = inr (v, XAPreviewDocument.Build_t 12).
Proof.
  split; [reflexivity|].
  apply (name_projection_pointwise example_app example_docs 1 12). reflexivity.
Defined.

(** C6: on the fake bridge, for a collection each of whose documents has a
    path, the clipboard export returns, after the one batched request for
    the paths, as many file references as the collection has documents, the
    [i]-th being what the clipboard export of the [i]-th document returns:
    the file reference of that document's path. *)
Theorem clipboard_export_pointwise :
  forall (w : FakeApp) (docs : XAPreviewDocumentList.t),
    let elems := members w (XAPreviewDocumentList.xa_elem docs) in
    forallb (fun e => isinstance_str (attribute w e "path")
                      || isinstance_NSURL (attribute w e "path")) elems = true ->
    exists urls,
      invoke fake_bridge XAPreviewDocumentList.get_clipboard_representation docs w
      = Outcome w [GetAttributeForEach (XAPreviewDocumentList.xa_elem docs) "path"]
          (inr (urls, docs))
      /\ length urls = length elems
      /\ Forall2
           (fun e u =>
              result (invoke fake_bridge XAPreviewDocument.get_clipboard_representation
                        (XAPreviewDocument.Build_t e) w)
              = inr (u, XAPreviewDocument.Build_t e))
           elems urls.
Proof.
  intros w docs elems Hpaths.
  destruct (wrap_paths_fake w docs elems Hpaths) as (paths & Hrun & Hall).
  exists (map XAPath.xa_elem paths). split; [|split].
  - unfold invoke, XAPreviewDocumentList.get_clipboard_representation,
      XAPreviewDocumentList.path.
    rewrite meth_bind_unfold, this_bind, bridge_bind.
    cbn [prog_bind run fake_bridge]. rewrite try_bind. cbn [py_iter].
    fold elems. rewrite Hrun. done.
  - rewrite length_map. symmetry. by eapply Forall2_length.
  - apply Forall2_fmap_r. eapply Forall2_impl; [exact Hall|].
    intros e p Hp. unfold invoke. simpl. by rewrite Hp.
Qed.

Lemma clipboard_export_pointwise_witness :
  forallb (fun e => isinstance_str (attribute example_app e "path")
                    || isinstance_NSURL (attribute example_app e "path"))
    (members example_app (XAPreviewDocumentList.xa_elem example_docs)) = true
  /\ exists urls,
       invoke fake_bridge XAPreviewDocumentList.get_clipboard_representation
         example_docs example_app
       = Outcome example_app
           [GetAttributeForEach (XAPreviewDocumentList.xa_elem example_docs) "path"]
           (inr (urls, example_docs))
       /\ length urls
          = length (members example_app (XAPreviewDocumentList.xa_elem example_docs))
       /\ Forall2
            (fun e u =>
               result (invoke fake_bridge
                         XAPreviewDocument.get_clipboard_representation
                         (XAPreviewDocument.Build_t e) example_app)
               = inr (u, XAPreviewDocument.Build_t e))
            (members example_app (XAPreviewDocumentList.xa_elem example_docs)) urls.
Proof.
  split; [reflexivity|].
  apply (clipboard_export_pointwise example_app example_docs). reflexivity.
Defined.

(** C6, as first stated for every collection, fails: with two documents
    open that have no path, the clipboard export of the collection raises
    after the batched request, and returns no list of two file references. *)
Lemma clipboard_export_without_path_raises :
  length (members edited_app (XAPreviewDocumentList.xa_elem example_docs)) = 2
  /\ (exists e : exn,
        invoke fake_bridge XAPreviewDocumentList.get_clipboard_representation
          example_docs edited_app
        = Outcome edited_app
            [GetAttributeForEach (XAPreviewDocumentList.xa_elem example_docs) "path"]
            (inl e))
  /\ ~ (exists urls : list NSURL,
          result (invoke fake_bridge XAPreviewDocumentList.get_clipboard_representation
                    example_docs edited_app)
          = inr (urls, example_docs)
          /\ length urls
             = length (members edited_app (XAPreviewDocumentList.xa_elem example_docs))).
Proof.
  split; [reflexivity|]. split; [by exists TypeError|].
  intros (urls & Hresult & _). discriminate Hresult.
Qed.

(** The spec's test for lookup by name: with the names [Example1.pdf] and
    [Example2.pdf], [Example2.pdf] is found and [Missing.pdf] is absent. *)
Example by_name_present :
  result (invoke fake_bridge (XAPreviewDocumentList.by_name (PyStr "Example2.pdf"))
            example_docs example_app)
  = inr (Some (XAPreviewDocument.Build_t 12), example_docs).
Proof. reflexivity. Qed.

Example by_name_absent :
  result (invoke fake_bridge (XAPreviewDocumentList.by_name (PyStr "Missing.pdf"))
            example_docs example_app)
  = inr (None, example_docs).
Proof. reflexivity. Qed.

(** C1: [by_path] does not treat a string and the path value wrapping it
    alike.  Given a string it builds the path value from the class [str],
    not from the string, so what it does is the same for every string; and
    for the path of a document that the lookup by path value finds, the
    lookup by string raises. *)
Theorem by_path_str_is_not_normalized :
  (forall s1 s2 : string,
      XAPreviewDocumentList.by_path (PyStr s1) = XAPreviewDocumentList.by_path (PyStr s2))
  /\ XABase.XAPath (PyStr "/Users/steven/Example1.pdf")
     = inr (XAPath.wrap (initFileURLWithPath_ "/Users/steven/Example1.pdf"))
  /\ result (invoke fake_bridge
               (XAPreviewDocumentList.by_path
                  (PyPath (XAPath.wrap (initFileURLWithPath_ "/Users/steven/Example1.pdf"))))
               example_docs url_app)
     = inr (Some (XAPreviewDocument.Build_t 11), example_docs)
  /\ result (invoke fake_bridge
               (XAPreviewDocumentList.by_path (PyStr "/Users/steven/Example1.pdf"))
               example_docs url_app)
     = inl TypeError.
Proof. repeat split. Qed.

Lemma getters_only_read_witness :
  get_attribute_is_query fake_bridge
  /\ (reads_attribute fake_bridge XAPreviewApplication.frontmost
        XAPreviewApplication.xa_scel "frontmost"
      /\ reads_attribute fake_bridge XAPreviewApplication.name
           XAPreviewApplication.xa_scel "name"
      /\ reads_attribute fake_bridge XAPreviewApplication.version
           XAPreviewApplication.xa_scel "version"
      /\ reads_attribute fake_bridge XAPreviewWindow.properties
           XAPreviewWindow.xa_elem "properties"
      /\ reads_attribute fake_bridge XAPreviewWindow.floating
           XAPreviewWindow.xa_elem "floating"
      /\ reads_attribute fake_bridge XAPreviewWindow.modal
           XAPreviewWindow.xa_elem "modal"
      /\ reads_attribute fake_bridge XAPreviewWindow.titled
           XAPreviewWindow.xa_elem "titled"
      /\ reads_attribute fake_bridge XAPreviewDocument.properties
           XAPreviewDocument.xa_elem "properties"
      /\ reads_attribute fake_bridge XAPreviewDocument.name
           XAPreviewDocument.xa_elem "name"
      /\ reads_attribute fake_bridge XAPreviewDocument.modified
           XAPreviewDocument.xa_elem "modified").
Proof.
  split; [intros w o selector; reflexivity|].
  apply (getters_only_read fake_bridge). intros w o selector; reflexivity.
Defined.

(** ** Further properties of the module *)

(** *** The application's [print] *)

(** [print] treats a string and the file URL of that string alike: both
    calls send the same single print action, leave the handle as it was and
    return [None] once the bridge has answered. *)
Theorem application_print_str_same_as_url :
  forall {R} (b : Bridge R) (w : R) (self : XAPreviewApplication.t)
         (s : string) (show_prompt : option bool),
    let request :=
      InvokeAction (XAPreviewApplication.xa_scel self)
        "print:printDialog:withProperties:"
        [PyURL (initFileURLWithPath_ s); PyBool (default true show_prompt); PyNone] in
    invoke b (XAPreviewApplication.print (PyStr s) show_prompt) self w
    = invoke b (XAPreviewApplication.print (PyURL (initFileURLWithPath_ s)) show_prompt)
        self w
    /\ invoke b (XAPreviewApplication.print (PyStr s) show_prompt) self w
       = Outcome (fst (b w request)) [request]
           (answer_of b w request (fun _ => (PyNone, self))).
Proof.
  intros R b w self s show_prompt request. split; [reflexivity|].
  unfold invoke, answer_of, request. simpl. by bridge_answers.
Qed.

(** *** Columnar projections *)

(** [mapM] over the path constructor sends nothing to the bridge: it returns
    the wrapped paths or raises. *)
Lemma wrap_all_local {S} (l : list pyval) (self : S) :
  exists r : exn + list XAPath.t,
    mapM (fun x => try (XABase.XAPath x)) l self = try r self.
Proof.
  induction l as [|x l [r Hr]].
  - by exists (inr []).
  - cbn [mapM]. rewrite try_bind.
    destruct (XABase.XAPath x) as [e|p]; [by exists (inl e)|].
    rewrite meth_bind_unfold, Hr.
    destruct r as [e|ps]; [by exists (inl e) | by exists (inr (p :: ps))].
Qed.

Lemma path_projection_calls {R} (b : Bridge R) (w : R)
    (docs : XAPreviewDocumentList.t) :
  calls (invoke b XAPreviewDocumentList.path docs w)
  = [GetAttributeForEach (XAPreviewDocumentList.xa_elem docs) "path"].
Proof.
  unfold invoke, XAPreviewDocumentList.path.
  rewrite this_bind, bridge_bind. cbn [run].
  bridge_answers; [done|]. rewrite try_bind.
  destruct (py_iter _) as [e|l]; [done|].
  destruct (wrap_all_local l docs) as [[e|ps] ->]; done.
Qed.

(** [properties()] and [modified()] are one batched request each, on any
    bridge; on the fake bridge entry [i] of each list is what the getter of
    the same name returns for the [i]-th document. *)
Theorem properties_modified_projection_pointwise :
  forall (w : FakeApp) (docs : XAPreviewDocumentList.t) (i : nat) (e : objref),
    members w (XAPreviewDocumentList.xa_elem docs) !! i = Some e ->
    (forall {R} (b : Bridge R) (w' : R),
        calls (invoke b XAPreviewDocumentList.properties docs w')
        = [GetAttributeForEach (XAPreviewDocumentList.xa_elem docs) "properties"]
        /\ calls (invoke b XAPreviewDocumentList.modified docs w')
           = [GetAttributeForEach (XAPreviewDocumentList.xa_elem docs) "modified"])
    /\ exists props flags p m,
         result (invoke fake_bridge XAPreviewDocumentList.properties docs w)
         = inr (PyList props, docs)
         /\ result (invoke fake_bridge XAPreviewDocumentList.modified docs w)
            = inr (PyList flags, docs)
         /\ length props = length (members w (XAPreviewDocumentList.xa_elem docs))
         /\ length flags = length (members w (XAPreviewDocumentList.xa_elem docs))
         /\ props !! i = Some p
         /\ flags !! i = Some m
         /\ result (invoke fake_bridge XAPreviewDocument.properties
                      (XAPreviewDocument.Build_t e) w)
            = inr (p, XAPreviewDocument.Build_t e)
         /\ result (invoke fake_bridge XAPreviewDocument.modified
                      (XAPreviewDocument.Build_t e) w)
            = inr (m, XAPreviewDocument.Build_t e).
Proof.
  intros w docs i e Hi. split.
  - intros R b w'. unfold invoke. split; simpl.
    + bridge_answers; [done|]. simpl. unfold try. by destruct (py_list _).
    + bridge_answers; [done|]. simpl. unfold try. by destruct (py_list _).
  - exists (map (fun o => attribute w o "properties")
              (members w (XAPreviewDocumentList.xa_elem docs))),
           (map (fun o => attribute w o "modified")
              (members w (XAPreviewDocumentList.xa_elem docs))),
           (attribute w e "properties"), (attribute w e "modified").
    rewrite !length_map, !list_lookup_fmap, Hi. done.
Qed.

Lemma properties_modified_projection_pointwise_witness :
  members edited_app (XAPreviewDocumentList.xa_elem example_docs) !! 0 = Some 11
  /\ exists props flags p m,
       result (invoke fake_bridge XAPreviewDocumentList.properties example_docs edited_app)
       = inr (PyList props, example_docs)
       /\ result (invoke fake_bridge XAPreviewDocumentList.modified example_docs edited_app)
          = inr (PyList flags, example_docs)
       /\ length props
          = length (members edited_app (XAPreviewDocumentList.xa_elem example_docs))
       /\ length flags
          = length (members edited_app (XAPreviewDocumentList.xa_elem example_docs))
       /\ props !! 0 = Some p
       /\ flags !! 0 = Some m
       /\ result (invoke fake_bridge XAPreviewDocument.properties
                    (XAPreviewDocument.Build_t 11) edited_app)
          = inr (p, XAPreviewDocument.Build_t 11)
       /\ result (invoke fake_bridge XAPreviewDocument.modified
                    (XAPreviewDocument.Build_t 11) edited_app)
          = inr (m, XAPreviewDocument.Build_t 11).
Proof.
  split; [reflexivity|].
  apply (properties_modified_projection_pointwise edited_app example_docs 0 11).
  reflexivity.
Defined.

(** On the fake bridge, for documents that each have a path, [path()]
    returns after its one batched request one path value per document, the
    [i]-th being what the [path] getter of the [i]-th document returns. *)
Theorem path_projection_pointwise :
  forall (w : FakeApp) (docs : XAPreviewDocumentList.t),
    let elems := members w (XAPreviewDocumentList.xa_elem docs) in
    forallb (fun e => isinstance_str (attribute w e "path")
                      || isinstance_NSURL (attribute w e "path")) elems = true ->
    exists paths,
      invoke fake_bridge XAPreviewDocumentList.path docs w
      = Outcome w [GetAttributeForEach (XAPreviewDocumentList.xa_elem docs) "path"]
          (inr (paths, docs))
      /\ Forall2
           (fun e p =>
              result (invoke fake_bridge XAPreviewDocument.path
                        (XAPreviewDocument.Build_t e) w)
              = inr (p, XAPreviewDocument.Build_t e))
           elems paths.
Proof.
  intros w docs elems Hpaths.
  destruct (wrap_paths_fake w docs elems Hpaths) as (paths & Hrun & Hall).
  exists paths. split.
  - unfold invoke, XAPreviewDocumentList.path.
    rewrite this_bind, bridge_bind. cbn [run fake_bridge].
    rewrite try_bind. cbn [py_iter]. fold elems. rewrite Hrun. done.
  - eapply Forall2_impl; [exact Hall|].
    intros e p Hp. unfold invoke. simpl. by rewrite Hp.
Qed.

Lemma path_projection_pointwise_witness :
  forallb (fun e => isinstance_str (attribute example_app e "path")
                    || isinstance_NSURL (attribute example_app e "path"))
    (members example_app (XAPreviewDocumentList.xa_elem example_docs)) = true
  /\ exists paths,
       invoke fake_bridge XAPreviewDocumentList.path example_docs example_app
       = Outcome example_app
           [GetAttributeForEach (XAPreviewDocumentList.xa_elem example_docs) "path"]
           (inr (paths, example_docs))
       /\ Forall2
            (fun e p =>
               result (invoke fake_bridge XAPreviewDocument.path
                         (XAPreviewDocument.Build_t e) example_app)
               = inr (p, XAPreviewDocument.Build_t e))
            (members example_app (XAPreviewDocumentList.xa_elem example_docs)) paths.
Proof.
  split; [reflexivity|].
  apply (path_projection_pointwise example_app example_docs). reflexivity.
Defined.

(** The clipboard export of a collection is its [path()] with each path
    replaced by its file reference, on any bridge: both send the one batched
    request for the paths and leave the application in the same state, and
    the export raises exactly when [path()] does, with the same exception. *)
Theorem clipboard_export_follows_path :
  forall {R} (b : Bridge R) (w : R) (docs : XAPreviewDocumentList.t),
    let paths := invoke b XAPreviewDocumentList.path docs w in
    let export := invoke b XAPreviewDocumentList.get_clipboard_representation docs w in
    calls paths = [GetAttributeForEach (XAPreviewDocumentList.xa_elem docs) "path"]
    /\ calls export = calls paths
    /\ remote export = remote paths
    /\ result export
       = match result paths with
         | inl e => inl e
         | inr (ps, self) => inr (map XAPath.xa_elem ps, self)
         end.
Proof.
  intros R b w docs paths export.
  split; [apply path_projection_calls|].
  unfold export, paths, invoke, XAPreviewDocumentList.get_clipboard_representation.
  rewrite meth_bind_unfold, run_bind. cbv zeta.
  destruct (result (run b (XAPreviewDocumentList.path docs) w)) as [e|[ps self]].
  - done.
  - cbn. by rewrite app_nil_r.
Qed.

(** When the bridge answers the batched request with nil, as it does for an
    application that cannot be reached, no projection returns an empty list:
    [properties()], [name()], [modified()], [path()] and the clipboard export
    all raise [TypeError], each after its one request. *)
Theorem projections_of_nil_raise :
  forall {R} (b : Bridge R) (w : R) (docs : XAPreviewDocumentList.t),
    (forall selector,
        snd (b w (GetAttributeForEach (XAPreviewDocumentList.xa_elem docs) selector))
        = inr PyNone) ->
    result (invoke b XAPreviewDocumentList.properties docs w) = inl TypeError
    /\ result (invoke b XAPreviewDocumentList.name docs w) = inl TypeError
    /\ result (invoke b XAPreviewDocumentList.modified docs w) = inl TypeError
    /\ result (invoke b XAPreviewDocumentList.path docs w) = inl TypeError
    /\ result (invoke b XAPreviewDocumentList.get_clipboard_representation docs w)
       = inl TypeError.
Proof.
  intros R b w docs Hnil. unfold invoke.
  repeat split; simpl;
    match goal with
    | |- context [b w (GetAttributeForEach ?o ?sel)] =>
        specialize (Hnil sel); destruct (b w (GetAttributeForEach o sel)) as [w' a]
    end; simpl in Hnil; by subst a.
Qed.

Lemma projections_of_nil_raise_witness :
  (forall selector,
      snd (nil_bridge tt
             (GetAttributeForEach (XAPreviewDocumentList.xa_elem example_docs) selector))
      = inr PyNone)
  /\ (result (invoke nil_bridge XAPreviewDocumentList.properties example_docs tt)
      = inl TypeError
      /\ result (invoke nil_bridge XAPreviewDocumentList.name example_docs tt)
         = inl TypeError
      /\ result (invoke nil_bridge XAPreviewDocumentList.modified example_docs tt)
         = inl TypeError
      /\ result (invoke nil_bridge XAPreviewDocumentList.path example_docs tt)
         = inl TypeError
      /\ result (invoke nil_bridge XAPreviewDocumentList.get_clipboard_representation
                   example_docs tt)
         = inl TypeError).
Proof.
  split; [intros selector; reflexivity|].
  apply (projections_of_nil_raise nil_bridge tt example_docs).
  intros selector; reflexivity.
Defined.

(** When the bridge answers the batched request with the empty list, as for
    an application with no document open, every projection and the clipboard
    export return the empty list. *)
Theorem projections_of_no_documents :
  forall {R} (b : Bridge R) (w : R) (docs : XAPreviewDocumentList.t),
    (forall selector,
        snd (b w (GetAttributeForEach (XAPreviewDocumentList.xa_elem docs) selector))
        = inr (PyList [])) ->
    result (invoke b XAPreviewDocumentList.properties docs w) = inr (PyList [], docs)
    /\ result (invoke b XAPreviewDocumentList.name docs w) = inr (PyList [], docs)
    /\ result (invoke b XAPreviewDocumentList.modified docs w) = inr (PyList [], docs)
    /\ result (invoke b XAPreviewDocumentList.path docs w) = inr ([], docs)
    /\ result (invoke b XAPreviewDocumentList.get_clipboard_representation docs w)
       = inr ([], docs).
Proof.
  intros R b w docs Hempty. unfold invoke.
  repeat split; simpl;
    match goal with
    | |- context [b w (GetAttributeForEach ?o ?sel)] =>
        specialize (Hempty sel); destruct (b w (GetAttributeForEach o sel)) as [w' a]
    end; simpl in Hempty; by subst a.
Qed.

Lemma projections_of_no_documents_witness :
  (forall selector,
      snd (fake_bridge no_documents_app
             (GetAttributeForEach (XAPreviewDocumentList.xa_elem example_docs) selector))
      = inr (PyList []))
  /\ (result (invoke fake_bridge XAPreviewDocumentList.properties
                example_docs no_documents_app)
      = inr (PyList [], example_docs)
      /\ result (invoke fake_bridge XAPreviewDocumentList.name
                   example_docs no_documents_app)
         = inr (PyList [], example_docs)
      /\ result (invoke fake_bridge XAPreviewDocumentList.modified
                   example_docs no_documents_app)
         = inr (PyList [], example_docs)
      /\ result (invoke fake_bridge XAPreviewDocumentList.path
                   example_docs no_documents_app)
         = inr ([], example_docs)
      /\ result (invoke fake_bridge XAPreviewDocumentList.get_clipboard_representation
                   example_docs no_documents_app)
         = inr ([], example_docs)).
Proof.
  split; [intros selector; reflexivity|].
  apply (projections_of_no_documents fake_bridge no_documents_app example_docs).
  intros selector; reflexivity.
Defined.

(** *** Arguments without [xa_elem] *)

(** [by_path] of [None], a [bool], a [list], a [dict] or an [NSURL] raises
    [AttributeError] on [path.xa_elem]: nothing is sent to the bridge and the
    remote application is not touched. *)
Theorem by_path_without_xa_elem_raises :
  forall {R} (b : Bridge R) (w : R) (docs : XAPreviewDocumentList.t) (path : pyval),
    lacks_xa_elem path = true ->
    invoke b (XAPreviewDocumentList.by_path path) docs w
    = Outcome w [] (inl AttributeError).
Proof.
  intros R b w docs path Hlacks.
  destruct path; try discriminate Hlacks; reflexivity.
Qed.

Lemma by_path_without_xa_elem_raises_witness :
  lacks_xa_elem PyNone = true
  /\ invoke fake_bridge (XAPreviewDocumentList.by_path PyNone) example_docs example_app
     = Outcome example_app [] (inl AttributeError).
Proof.
  split; [reflexivity|].
  apply (by_path_without_xa_elem_raises fake_bridge example_app example_docs PyNone).
  reflexivity.
Defined.

(** Assigning to [document.path] a raw string, or [None], a [bool], a
    [list], a [dict] or an [NSURL], raises [AttributeError] on [path.xa_elem]
    before [set_property] is called, whatever [set_property] does: nothing
    is sent to the bridge. *)
Theorem document_path_setter_needs_path_value :
  forall (set_property : string -> pyval -> meth XAPreviewDocument.t pyval)
         {R} (b : Bridge R) (w : R) (d : XAPreviewDocument.t) (path : pyval),
    isinstance_str path || lacks_xa_elem path = true ->
    invoke b (XAPreviewDocumentSetters.path set_property path) d w
    = Outcome w [] (inl AttributeError).
Proof.
  intros set_property R b w d path Hlacks.
  unfold invoke, XAPreviewDocumentSetters.path. rewrite try_bind.
  destruct path; try discriminate Hlacks; reflexivity.
Qed.

Lemma document_path_setter_needs_path_value_witness :
  isinstance_str (PyStr "/Users/steven/Downloads/Example.png")
  || lacks_xa_elem (PyStr "/Users/steven/Downloads/Example.png") = true
  /\ invoke fake_bridge
       (XAPreviewDocumentSetters.path set_attribute_of_document
          (PyStr "/Users/steven/Downloads/Example.png"))
       (XAPreviewDocument.Build_t 11) example_app
     = Outcome example_app [] (inl AttributeError).
Proof.
  split; [reflexivity|].
  apply (document_path_setter_needs_path_value set_attribute_of_document
           fake_bridge example_app (XAPreviewDocument.Build_t 11)).
  reflexivity.
Defined.

(** *** The clipboard export of one document *)

(** On a bridge whose get-attribute is a query, when the bridge gives the
    string [s] as the document's path, the [path] getter returns the path
    value of [s] and the clipboard export the file URL of [s]; each sends
    that one query and leaves the application and the handle as they were. *)
Theorem document_clipboard_is_file_url_of_path :
  forall {R} (b : Bridge R) (w : R) (d : XAPreviewDocument.t) (s : string),
    let q := GetAttribute (XAPreviewDocument.xa_elem d) "path" in
    get_attribute_is_query b ->
    snd (b w q) = inr (PyStr s) ->
    invoke b XAPreviewDocument.path d w
    = Outcome w [q] (inr (XAPath.wrap (initFileURLWithPath_ s), d))
    /\ invoke b XAPreviewDocument.get_clipboard_representation d w
       = Outcome w [q] (inr (initFileURLWithPath_ s, d)).
Proof.
  intros R b w d s q Hquery Hanswer.
  specialize (Hquery w (XAPreviewDocument.xa_elem d) "path").
  subst q. unfold invoke. simpl.
  destruct (b w (GetAttribute (XAPreviewDocument.xa_elem d) "path")) as [w' a].
  simpl in Hquery, Hanswer. by subst w' a.
Qed.

Lemma document_clipboard_is_file_url_of_path_witness :
  get_attribute_is_query fake_bridge
  /\ snd (fake_bridge example_app
            (GetAttribute (XAPreviewDocument.xa_elem (XAPreviewDocument.Build_t 11))
               "path"))
     = inr (PyStr "/Users/steven/Example1.pdf")
  /\ invoke fake_bridge XAPreviewDocument.path (XAPreviewDocument.Build_t 11) example_app
     = Outcome example_app
         [GetAttribute (XAPreviewDocument.xa_elem (XAPreviewDocument.Build_t 11)) "path"]
         (inr (XAPath.wrap (initFileURLWithPath_ "/Users/steven/Example1.pdf"),
               XAPreviewDocument.Build_t 11))
  /\ invoke fake_bridge XAPreviewDocument.get_clipboard_representation
       (XAPreviewDocument.Build_t 11) example_app
     = Outcome example_app
         [GetAttribute (XAPreviewDocument.xa_elem (XAPreviewDocument.Build_t 11)) "path"]
         (inr (initFileURLWithPath_ "/Users/steven/Example1.pdf",
               XAPreviewDocument.Build_t 11)).
Proof.
  split; [intros w o selector; reflexivity|]. split; [reflexivity|].
  apply (document_clipboard_is_file_url_of_path fake_bridge example_app
           (XAPreviewDocument.Build_t 11) "/Users/steven/Example1.pdf").
  - intros w o selector; reflexivity.
  - reflexivity.
Defined.
